(** * dagit: generated GraphQL types, status tags and the label colour selector

    A shallow embedding of

    - [assets/types/LatestMaterializationMetadataFragment.ts]
    - [workspace/asset-graph/types/AssetGraphQuery.ts]
    - the [Badge], [Experimental], [Deprecated] and [Legacy] components

    TypeScript interfaces become records, string-literal types become
    singleton types indexed by the literal, unions of interfaces become
    inductive types with one constructor per member interface, and every
    value has a view as the JavaScript object it denotes (an ordered list of
    key/value pairs), so that statements about "the fields a variant carries"
    are statements about keys of that object. *)

From Stdlib Require Import List String Ascii NArith PeanoNat Bool Lia.
From Stdlib Require Import Floats.
Import ListNotations.
Local Open Scope string_scope.
Local Open Scope list_scope.

(** ** JavaScript values *)

(** [number] in TypeScript is an IEEE-754 double. *)
Definition number : Set := float.

Local Unset Elimination Schemes.
Inductive JsValue : Set :=
| JsNull
| JsString (s : string)
| JsNumber (x : number)
| JsArray (xs : list JsValue)
| JsObject (fields : list (string * JsValue)).
Local Set Elimination Schemes.

Definition JsFields : Set := list (string * JsValue).

(** Property read [o[k]]: the first binding of [k], [None] for a missing key. *)
Fixpoint getField (k : string) (o : JsFields) : option JsValue :=
  match o with
  | [] => None
  | (k', v) :: rest => if String.eqb k k' then Some v else getField k rest
  end.

Definition hasField (k : string) (o : JsFields) : bool :=
  match getField k o with Some _ => true | None => false end.

Definition keys (o : JsFields) : list string := map fst o.

(** [T | null] *)
Definition nullable {A : Type} (inj : A -> JsValue) (x : option A) : JsValue :=
  match x with
  | Some a => inj a
  | None => JsNull
  end.

Definition JsStrings (xs : list string) : JsValue := JsArray (map JsString xs).

(** ** String-literal types *)

(** The literal type ["Run"] has the single inhabitant ["Run"]. *)
Inductive Lit (s : string) : Set := lit.
Arguments lit {s}.

Definition literal {s : string} (_ : Lit s) : string := s.

(** The literal type ["A" | "B"]. *)
Inductive Lit2 (a b : string) : Set :=
| lit_l
| lit_r.
Arguments lit_l {a b}.
Arguments lit_r {a b}.

Definition literal2 {a b : string} (x : Lit2 a b) : string :=
  match x with
  | lit_l => a
  | lit_r => b
  end.

(** ** GraphQL fragment: LatestMaterializationMetadataFragment *)

Record LatestMaterializationMetadataFragment_runOrError_RunNotFoundError : Set := {
  RunNotFoundError__typename : Lit2 "RunNotFoundError" "PythonError"
}.

Record LatestMaterializationMetadataFragment_runOrError_Run_repositoryOrigin : Set := {
  repositoryOrigin__typename : Lit "RepositoryOrigin";
  repositoryOrigin_id : string;
  repositoryOrigin_repositoryName : string;
  repositoryOrigin_repositoryLocationName : string
}.

Record LatestMaterializationMetadataFragment_runOrError_Run : Set := {
  Run__typename : Lit "Run";
  Run_id : string;
  Run_runId : string;
  Run_mode : string;
  Run_pipelineName : string;
  Run_pipelineSnapshotId : option string;
  Run_repositoryOrigin :
    option LatestMaterializationMetadataFragment_runOrError_Run_repositoryOrigin
}.

Inductive LatestMaterializationMetadataFragment_runOrError : Set :=
| runOrError_RunNotFoundError
    (v : LatestMaterializationMetadataFragment_runOrError_RunNotFoundError)
| runOrError_Run
    (v : LatestMaterializationMetadataFragment_runOrError_Run).

Record LatestMaterializationMetadataFragment_stepStats : Set := {
  stepStats__typename : Lit "RunStepStats";
  stepStats_endTime : option number;
  stepStats_startTime : option number
}.

Record LatestMaterializationMetadataFragment_metadataEntries_EventTableSchemaMetadataEntry : Set := {
  EventTableSchemaMetadataEntry__typename :
    Lit2 "EventTableSchemaMetadataEntry" "EventTableMetadataEntry";
  EventTableSchemaMetadataEntry_label : string;
  EventTableSchemaMetadataEntry_description : option string
}.

Record LatestMaterializationMetadataFragment_metadataEntries_EventPathMetadataEntry : Set := {
  EventPathMetadataEntry__typename : Lit "EventPathMetadataEntry";
  EventPathMetadataEntry_label : string;
  EventPathMetadataEntry_description : option string;
  EventPathMetadataEntry_path : string
}.

Record LatestMaterializationMetadataFragment_metadataEntries_EventJsonMetadataEntry : Set := {
  EventJsonMetadataEntry__typename : Lit "EventJsonMetadataEntry";
  EventJsonMetadataEntry_label : string;
  EventJsonMetadataEntry_description : option string;
  EventJsonMetadataEntry_jsonString : string
}.

Record LatestMaterializationMetadataFragment_metadataEntries_EventUrlMetadataEntry : Set := {
  EventUrlMetadataEntry__typename : Lit "EventUrlMetadataEntry";
  EventUrlMetadataEntry_label : string;
  EventUrlMetadataEntry_description : option string;
  EventUrlMetadataEntry_url : string
}.

Record LatestMaterializationMetadataFragment_metadataEntries_EventTextMetadataEntry : Set := {
  EventTextMetadataEntry__typename : Lit "EventTextMetadataEntry";
  EventTextMetadataEntry_label : string;
  EventTextMetadataEntry_description : option string;
  EventTextMetadataEntry_text : string
}.

Record LatestMaterializationMetadataFragment_metadataEntries_EventMarkdownMetadataEntry : Set := {
  EventMarkdownMetadataEntry__typename : Lit "EventMarkdownMetadataEntry";
  EventMarkdownMetadataEntry_label : string;
  EventMarkdownMetadataEntry_description : option string;
  EventMarkdownMetadataEntry_mdStr : string
}.

Record LatestMaterializationMetadataFragment_metadataEntries_EventPythonArtifactMetadataEntry : Set := {
  EventPythonArtifactMetadataEntry__typename : Lit "EventPythonArtifactMetadataEntry";
  EventPythonArtifactMetadataEntry_label : string;
  EventPythonArtifactMetadataEntry_description : option string;
  EventPythonArtifactMetadataEntry_module : string;
  EventPythonArtifactMetadataEntry_name : string
}.

Record LatestMaterializationMetadataFragment_metadataEntries_EventFloatMetadataEntry : Set := {
  EventFloatMetadataEntry__typename : Lit "EventFloatMetadataEntry";
  EventFloatMetadataEntry_label : string;
  EventFloatMetadataEntry_description : option string;
  EventFloatMetadataEntry_floatValue : option number
}.

Record LatestMaterializationMetadataFragment_metadataEntries_EventIntMetadataEntry : Set := {
  EventIntMetadataEntry__typename : Lit "EventIntMetadataEntry";
  EventIntMetadataEntry_label : string;
  EventIntMetadataEntry_description : option string;
  EventIntMetadataEntry_intValue : option number;
  EventIntMetadataEntry_intRepr : string
}.

Record LatestMaterializationMetadataFragment_metadataEntries_EventPipelineRunMetadataEntry : Set := {
  EventPipelineRunMetadataEntry__typename : Lit "EventPipelineRunMetadataEntry";
  EventPipelineRunMetadataEntry_label : string;
  EventPipelineRunMetadataEntry_description : option string;
  EventPipelineRunMetadataEntry_runId : string
}.

Record LatestMaterializationMetadataFragment_metadataEntries_EventAssetMetadataEntry_assetKey : Set := {
  EventAssetMetadataEntry_assetKey__typename : Lit "AssetKey";
  EventAssetMetadataEntry_assetKey_path : list string
}.

Record LatestMaterializationMetadataFragment_metadataEntries_EventAssetMetadataEntry : Set := {
  EventAssetMetadataEntry__typename : Lit "EventAssetMetadataEntry";
  EventAssetMetadataEntry_label : string;
  EventAssetMetadataEntry_description : option string;
  EventAssetMetadataEntry_assetKey :
    LatestMaterializationMetadataFragment_metadataEntries_EventAssetMetadataEntry_assetKey
}.

Inductive LatestMaterializationMetadataFragment_metadataEntries : Set :=
| metadataEntries_EventTableSchemaMetadataEntry
    (v : LatestMaterializationMetadataFragment_metadataEntries_EventTableSchemaMetadataEntry)
| metadataEntries_EventPathMetadataEntry
    (v : LatestMaterializationMetadataFragment_metadataEntries_EventPathMetadataEntry)
| metadataEntries_EventJsonMetadataEntry
    (v : LatestMaterializationMetadataFragment_metadataEntries_EventJsonMetadataEntry)
| metadataEntries_EventUrlMetadataEntry
    (v : LatestMaterializationMetadataFragment_metadataEntries_EventUrlMetadataEntry)
| metadataEntries_EventTextMetadataEntry
    (v : LatestMaterializationMetadataFragment_metadataEntries_EventTextMetadataEntry)
| metadataEntries_EventMarkdownMetadataEntry
    (v : LatestMaterializationMetadataFragment_metadataEntries_EventMarkdownMetadataEntry)
| metadataEntries_EventPythonArtifactMetadataEntry
    (v : LatestMaterializationMetadataFragment_metadataEntries_EventPythonArtifactMetadataEntry)
| metadataEntries_EventFloatMetadataEntry
    (v : LatestMaterializationMetadataFragment_metadataEntries_EventFloatMetadataEntry)
| metadataEntries_EventIntMetadataEntry
    (v : LatestMaterializationMetadataFragment_metadataEntries_EventIntMetadataEntry)
| metadataEntries_EventPipelineRunMetadataEntry
    (v : LatestMaterializationMetadataFragment_metadataEntries_EventPipelineRunMetadataEntry)
| metadataEntries_EventAssetMetadataEntry
    (v : LatestMaterializationMetadataFragment_metadataEntries_EventAssetMetadataEntry).

Record LatestMaterializationMetadataFragment_assetLineage_assetKey : Set := {
  assetLineage_assetKey__typename : Lit "AssetKey";
  assetLineage_assetKey_path : list string
}.

Record LatestMaterializationMetadataFragment_assetLineage : Set := {
  assetLineage__typename : Lit "AssetLineageInfo";
  assetLineage_assetKey : LatestMaterializationMetadataFragment_assetLineage_assetKey;
  assetLineage_partitions : list string
}.

Record LatestMaterializationMetadataFragment : Set := {
  Fragment__typename : Lit "MaterializationEvent";
  Fragment_partition : option string;
  Fragment_runOrError : LatestMaterializationMetadataFragment_runOrError;
  Fragment_runId : string;
  Fragment_timestamp : string;
  Fragment_stepKey : option string;
  Fragment_stepStats : LatestMaterializationMetadataFragment_stepStats;
  Fragment_metadataEntries : list LatestMaterializationMetadataFragment_metadataEntries;
  Fragment_assetLineage : list LatestMaterializationMetadataFragment_assetLineage
}.

(** ** GraphQL query operation: AssetGraphQuery *)

Record AssetGraphQuery_assetNodes_assetKey : Set := {
  assetNodes_assetKey__typename : Lit "AssetKey";
  assetNodes_assetKey_path : list string
}.

Record AssetGraphQuery_assetNodes_dependencyKeys : Set := {
  assetNodes_dependencyKeys__typename : Lit "AssetKey";
  assetNodes_dependencyKeys_path : list string
}.

Record AssetGraphQuery_assetNodes_dependedByKeys : Set := {
  assetNodes_dependedByKeys__typename : Lit "AssetKey";
  assetNodes_dependedByKeys_path : list string
}.

Record AssetGraphQuery_assetNodes : Set := {
  assetNodes__typename : Lit "AssetNode";
  assetNodes_id : string;
  assetNodes_opName : option string;
  assetNodes_description : option string;
  assetNodes_partitionDefinition : option string;
  assetNodes_assetKey : AssetGraphQuery_assetNodes_assetKey;
  assetNodes_dependencyKeys : list AssetGraphQuery_assetNodes_dependencyKeys;
  assetNodes_dependedByKeys : list AssetGraphQuery_assetNodes_dependedByKeys
}.

Record AssetGraphQuery : Set := {
  AssetGraphQuery_assetNodes_ : list AssetGraphQuery_assetNodes
}.

(** [PipelineSelector] is imported from [globalTypes], so it stays a parameter. *)
Record AssetGraphQueryVariables (PipelineSelector : Type) : Type := {
  pipelineSelector : PipelineSelector
}.

(** ** The objects the fragment's values denote *)

Definition RunNotFoundError_object
  (v : LatestMaterializationMetadataFragment_runOrError_RunNotFoundError) : JsFields :=
  [ ("__typename", JsString (literal2 (RunNotFoundError__typename v))) ].

Definition repositoryOrigin_object
  (v : LatestMaterializationMetadataFragment_runOrError_Run_repositoryOrigin) : JsFields :=
  [ ("__typename", JsString (literal (repositoryOrigin__typename v)));
    ("id", JsString (repositoryOrigin_id v));
    ("repositoryName", JsString (repositoryOrigin_repositoryName v));
    ("repositoryLocationName", JsString (repositoryOrigin_repositoryLocationName v)) ].

Definition Run_object
  (v : LatestMaterializationMetadataFragment_runOrError_Run) : JsFields :=
  [ ("__typename", JsString (literal (Run__typename v)));
    ("id", JsString (Run_id v));
    ("runId", JsString (Run_runId v));
    ("mode", JsString (Run_mode v));
    ("pipelineName", JsString (Run_pipelineName v));
    ("pipelineSnapshotId", nullable JsString (Run_pipelineSnapshotId v));
    ("repositoryOrigin",
     nullable (fun o => JsObject (repositoryOrigin_object o)) (Run_repositoryOrigin v)) ].

Definition runOrError_object
  (r : LatestMaterializationMetadataFragment_runOrError) : JsFields :=
  match r with
  | runOrError_RunNotFoundError v => RunNotFoundError_object v
  | runOrError_Run v => Run_object v
  end.

Definition stepStats_object
  (v : LatestMaterializationMetadataFragment_stepStats) : JsFields :=
  [ ("__typename", JsString (literal (stepStats__typename v)));
    ("endTime", nullable JsNumber (stepStats_endTime v));
    ("startTime", nullable JsNumber (stepStats_startTime v)) ].

Definition EventTableSchemaMetadataEntry_object
  (v : LatestMaterializationMetadataFragment_metadataEntries_EventTableSchemaMetadataEntry)
  : JsFields :=
  [ ("__typename", JsString (literal2 (EventTableSchemaMetadataEntry__typename v)));
    ("label", JsString (EventTableSchemaMetadataEntry_label v));
    ("description", nullable JsString (EventTableSchemaMetadataEntry_description v)) ].

Definition EventPathMetadataEntry_object
  (v : LatestMaterializationMetadataFragment_metadataEntries_EventPathMetadataEntry)
  : JsFields :=
  [ ("__typename", JsString (literal (EventPathMetadataEntry__typename v)));
    ("label", JsString (EventPathMetadataEntry_label v));
    ("description", nullable JsString (EventPathMetadataEntry_description v));
    ("path", JsString (EventPathMetadataEntry_path v)) ].

Definition EventJsonMetadataEntry_object
  (v : LatestMaterializationMetadataFragment_metadataEntries_EventJsonMetadataEntry)
  : JsFields :=
  [ ("__typename", JsString (literal (EventJsonMetadataEntry__typename v)));
    ("label", JsString (EventJsonMetadataEntry_label v));
    ("description", nullable JsString (EventJsonMetadataEntry_description v));
    ("jsonString", JsString (EventJsonMetadataEntry_jsonString v)) ].

Definition EventUrlMetadataEntry_object
  (v : LatestMaterializationMetadataFragment_metadataEntries_EventUrlMetadataEntry)
  : JsFields :=
  [ ("__typename", JsString (literal (EventUrlMetadataEntry__typename v)));
    ("label", JsString (EventUrlMetadataEntry_label v));
    ("description", nullable JsString (EventUrlMetadataEntry_description v));
    ("url", JsString (EventUrlMetadataEntry_url v)) ].

Definition EventTextMetadataEntry_object
  (v : LatestMaterializationMetadataFragment_metadataEntries_EventTextMetadataEntry)
  : JsFields :=
  [ ("__typename", JsString (literal (EventTextMetadataEntry__typename v)));
    ("label", JsString (EventTextMetadataEntry_label v));
    ("description", nullable JsString (EventTextMetadataEntry_description v));
    ("text", JsString (EventTextMetadataEntry_text v)) ].

Definition EventMarkdownMetadataEntry_object
  (v : LatestMaterializationMetadataFragment_metadataEntries_EventMarkdownMetadataEntry)
  : JsFields :=
  [ ("__typename", JsString (literal (EventMarkdownMetadataEntry__typename v)));
    ("label", JsString (EventMarkdownMetadataEntry_label v));
    ("description", nullable JsString (EventMarkdownMetadataEntry_description v));
    ("mdStr", JsString (EventMarkdownMetadataEntry_mdStr v)) ].

Definition EventPythonArtifactMetadataEntry_object
  (v : LatestMaterializationMetadataFragment_metadataEntries_EventPythonArtifactMetadataEntry)
  : JsFields :=
  [ ("__typename", JsString (literal (EventPythonArtifactMetadataEntry__typename v)));
    ("label", JsString (EventPythonArtifactMetadataEntry_label v));
    ("description", nullable JsString (EventPythonArtifactMetadataEntry_description v));
    ("module", JsString (EventPythonArtifactMetadataEntry_module v));
    ("name", JsString (EventPythonArtifactMetadataEntry_name v)) ].

Definition EventFloatMetadataEntry_object
  (v : LatestMaterializationMetadataFragment_metadataEntries_EventFloatMetadataEntry)
  : JsFields :=
  [ ("__typename", JsString (literal (EventFloatMetadataEntry__typename v)));
    ("label", JsString (EventFloatMetadataEntry_label v));
    ("description", nullable JsString (EventFloatMetadataEntry_description v));
    ("floatValue", nullable JsNumber (EventFloatMetadataEntry_floatValue v)) ].

Definition EventIntMetadataEntry_object
  (v : LatestMaterializationMetadataFragment_metadataEntries_EventIntMetadataEntry)
  : JsFields :=
  [ ("__typename", JsString (literal (EventIntMetadataEntry__typename v)));
    ("label", JsString (EventIntMetadataEntry_label v));
    ("description", nullable JsString (EventIntMetadataEntry_description v));
    ("intValue", nullable JsNumber (EventIntMetadataEntry_intValue v));
    ("intRepr", JsString (EventIntMetadataEntry_intRepr v)) ].

Definition EventPipelineRunMetadataEntry_object
  (v : LatestMaterializationMetadataFragment_metadataEntries_EventPipelineRunMetadataEntry)
  : JsFields :=
  [ ("__typename", JsString (literal (EventPipelineRunMetadataEntry__typename v)));
    ("label", JsString (EventPipelineRunMetadataEntry_label v));
    ("description", nullable JsString (EventPipelineRunMetadataEntry_description v));
    ("runId", JsString (EventPipelineRunMetadataEntry_runId v)) ].

Definition EventAssetMetadataEntry_assetKey_object
  (v : LatestMaterializationMetadataFragment_metadataEntries_EventAssetMetadataEntry_assetKey)
  : JsFields :=
  [ ("__typename", JsString (literal (EventAssetMetadataEntry_assetKey__typename v)));
    ("path", JsStrings (EventAssetMetadataEntry_assetKey_path v)) ].

Definition EventAssetMetadataEntry_object
  (v : LatestMaterializationMetadataFragment_metadataEntries_EventAssetMetadataEntry)
  : JsFields :=
  [ ("__typename", JsString (literal (EventAssetMetadataEntry__typename v)));
    ("label", JsString (EventAssetMetadataEntry_label v));
    ("description", nullable JsString (EventAssetMetadataEntry_description v));
    ("assetKey",
     JsObject (EventAssetMetadataEntry_assetKey_object (EventAssetMetadataEntry_assetKey v))) ].

Definition metadataEntries_object
  (e : LatestMaterializationMetadataFragment_metadataEntries) : JsFields :=
  match e with
  | metadataEntries_EventTableSchemaMetadataEntry v => EventTableSchemaMetadataEntry_object v
  | metadataEntries_EventPathMetadataEntry v => EventPathMetadataEntry_object v
  | metadataEntries_EventJsonMetadataEntry v => EventJsonMetadataEntry_object v
  | metadataEntries_EventUrlMetadataEntry v => EventUrlMetadataEntry_object v
  | metadataEntries_EventTextMetadataEntry v => EventTextMetadataEntry_object v
  | metadataEntries_EventMarkdownMetadataEntry v => EventMarkdownMetadataEntry_object v
  | metadataEntries_EventPythonArtifactMetadataEntry v =>
      EventPythonArtifactMetadataEntry_object v
  | metadataEntries_EventFloatMetadataEntry v => EventFloatMetadataEntry_object v
  | metadataEntries_EventIntMetadataEntry v => EventIntMetadataEntry_object v
  | metadataEntries_EventPipelineRunMetadataEntry v => EventPipelineRunMetadataEntry_object v
  | metadataEntries_EventAssetMetadataEntry v => EventAssetMetadataEntry_object v
  end.

Definition assetLineage_assetKey_object
  (v : LatestMaterializationMetadataFragment_assetLineage_assetKey) : JsFields :=
  [ ("__typename", JsString (literal (assetLineage_assetKey__typename v)));
    ("path", JsStrings (assetLineage_assetKey_path v)) ].

Definition assetLineage_object
  (v : LatestMaterializationMetadataFragment_assetLineage) : JsFields :=
  [ ("__typename", JsString (literal (assetLineage__typename v)));
    ("assetKey", JsObject (assetLineage_assetKey_object (assetLineage_assetKey v)));
    ("partitions", JsStrings (assetLineage_partitions v)) ].

Definition LatestMaterializationMetadataFragment_object
  (v : LatestMaterializationMetadataFragment) : JsFields :=
  [ ("__typename", JsString (literal (Fragment__typename v)));
    ("partition", nullable JsString (Fragment_partition v));
    ("runOrError", JsObject (runOrError_object (Fragment_runOrError v)));
    ("runId", JsString (Fragment_runId v));
    ("timestamp", JsString (Fragment_timestamp v));
    ("stepKey", nullable JsString (Fragment_stepKey v));
    ("stepStats", JsObject (stepStats_object (Fragment_stepStats v)));
    ("metadataEntries",
     JsArray (map (fun e => JsObject (metadataEntries_object e)) (Fragment_metadataEntries v)));
    ("assetLineage",
     JsArray (map (fun a => JsObject (assetLineage_object a)) (Fragment_assetLineage v))) ].

(** ** Member interfaces and discriminators of the two unions *)

Inductive runOrError_interface : Set :=
| I_RunNotFoundError
| I_Run.

Definition runOrError_interfaces : list runOrError_interface :=
  [ I_RunNotFoundError; I_Run ].

Definition runOrError_interfaceOf
  (r : LatestMaterializationMetadataFragment_runOrError) : runOrError_interface :=
  match r with
  | runOrError_RunNotFoundError _ => I_RunNotFoundError
  | runOrError_Run _ => I_Run
  end.

(** [r.__typename] *)
Definition runOrError_typename
  (r : LatestMaterializationMetadataFragment_runOrError) : string :=
  match r with
  | runOrError_RunNotFoundError v => literal2 (RunNotFoundError__typename v)
  | runOrError_Run v => literal (Run__typename v)
  end.

(** The literals the [__typename] field of each interface admits. *)
Definition runOrError_typenames (i : runOrError_interface) : list string :=
  match i with
  | I_RunNotFoundError => [ "RunNotFoundError"; "PythonError" ]
  | I_Run => [ "Run" ]
  end.

(** The fields each interface declares besides [__typename]. *)
Definition runOrError_ownFields (i : runOrError_interface) : list string :=
  match i with
  | I_RunNotFoundError => []
  | I_Run =>
      [ "id"; "runId"; "mode"; "pipelineName"; "pipelineSnapshotId"; "repositoryOrigin" ]
  end.

Inductive metadataEntries_interface : Set :=
| I_EventTableSchemaMetadataEntry
| I_EventPathMetadataEntry
| I_EventJsonMetadataEntry
| I_EventUrlMetadataEntry
| I_EventTextMetadataEntry
| I_EventMarkdownMetadataEntry
| I_EventPythonArtifactMetadataEntry
| I_EventFloatMetadataEntry
| I_EventIntMetadataEntry
| I_EventPipelineRunMetadataEntry
| I_EventAssetMetadataEntry.

Definition metadataEntries_interfaces : list metadataEntries_interface :=
  [ I_EventTableSchemaMetadataEntry; I_EventPathMetadataEntry; I_EventJsonMetadataEntry;
    I_EventUrlMetadataEntry; I_EventTextMetadataEntry; I_EventMarkdownMetadataEntry;
    I_EventPythonArtifactMetadataEntry; I_EventFloatMetadataEntry; I_EventIntMetadataEntry;
    I_EventPipelineRunMetadataEntry; I_EventAssetMetadataEntry ].

Definition metadataEntries_interfaceOf
  (e : LatestMaterializationMetadataFragment_metadataEntries) : metadataEntries_interface :=
  match e with
  | metadataEntries_EventTableSchemaMetadataEntry _ => I_EventTableSchemaMetadataEntry
  | metadataEntries_EventPathMetadataEntry _ => I_EventPathMetadataEntry
  | metadataEntries_EventJsonMetadataEntry _ => I_EventJsonMetadataEntry
  | metadataEntries_EventUrlMetadataEntry _ => I_EventUrlMetadataEntry
  | metadataEntries_EventTextMetadataEntry _ => I_EventTextMetadataEntry
  | metadataEntries_EventMarkdownMetadataEntry _ => I_EventMarkdownMetadataEntry
  | metadataEntries_EventPythonArtifactMetadataEntry _ => I_EventPythonArtifactMetadataEntry
  | metadataEntries_EventFloatMetadataEntry _ => I_EventFloatMetadataEntry
  | metadataEntries_EventIntMetadataEntry _ => I_EventIntMetadataEntry
  | metadataEntries_EventPipelineRunMetadataEntry _ => I_EventPipelineRunMetadataEntry
  | metadataEntries_EventAssetMetadataEntry _ => I_EventAssetMetadataEntry
  end.

(** [e.__typename] *)
Definition metadataEntries_typename
  (e : LatestMaterializationMetadataFragment_metadataEntries) : string :=
  match e with
  | metadataEntries_EventTableSchemaMetadataEntry v =>
      literal2 (EventTableSchemaMetadataEntry__typename v)
  | metadataEntries_EventPathMetadataEntry v => literal (EventPathMetadataEntry__typename v)
  | metadataEntries_EventJsonMetadataEntry v => literal (EventJsonMetadataEntry__typename v)
  | metadataEntries_EventUrlMetadataEntry v => literal (EventUrlMetadataEntry__typename v)
  | metadataEntries_EventTextMetadataEntry v => literal (EventTextMetadataEntry__typename v)
  | metadataEntries_EventMarkdownMetadataEntry v =>
      literal (EventMarkdownMetadataEntry__typename v)
  | metadataEntries_EventPythonArtifactMetadataEntry v =>
      literal (EventPythonArtifactMetadataEntry__typename v)
  | metadataEntries_EventFloatMetadataEntry v => literal (EventFloatMetadataEntry__typename v)
  | metadataEntries_EventIntMetadataEntry v => literal (EventIntMetadataEntry__typename v)
  | metadataEntries_EventPipelineRunMetadataEntry v =>
      literal (EventPipelineRunMetadataEntry__typename v)
  | metadataEntries_EventAssetMetadataEntry v => literal (EventAssetMetadataEntry__typename v)
  end.

Definition metadataEntries_typenames (i : metadataEntries_interface) : list string :=
  match i with
  | I_EventTableSchemaMetadataEntry =>
      [ "EventTableSchemaMetadataEntry"; "EventTableMetadataEntry" ]
  | I_EventPathMetadataEntry => [ "EventPathMetadataEntry" ]
  | I_EventJsonMetadataEntry => [ "EventJsonMetadataEntry" ]
  | I_EventUrlMetadataEntry => [ "EventUrlMetadataEntry" ]
  | I_EventTextMetadataEntry => [ "EventTextMetadataEntry" ]
  | I_EventMarkdownMetadataEntry => [ "EventMarkdownMetadataEntry" ]
  | I_EventPythonArtifactMetadataEntry => [ "EventPythonArtifactMetadataEntry" ]
  | I_EventFloatMetadataEntry => [ "EventFloatMetadataEntry" ]
  | I_EventIntMetadataEntry => [ "EventIntMetadataEntry" ]
  | I_EventPipelineRunMetadataEntry => [ "EventPipelineRunMetadataEntry" ]
  | I_EventAssetMetadataEntry => [ "EventAssetMetadataEntry" ]
  end.

Definition metadataEntries_ownFields (i : metadataEntries_interface) : list string :=
  match i with
  | I_EventTableSchemaMetadataEntry => [ "label"; "description" ]
  | I_EventPathMetadataEntry => [ "label"; "description"; "path" ]
  | I_EventJsonMetadataEntry => [ "label"; "description"; "jsonString" ]
  | I_EventUrlMetadataEntry => [ "label"; "description"; "url" ]
  | I_EventTextMetadataEntry => [ "label"; "description"; "text" ]
  | I_EventMarkdownMetadataEntry => [ "label"; "description"; "mdStr" ]
  | I_EventPythonArtifactMetadataEntry => [ "label"; "description"; "module"; "name" ]
  | I_EventFloatMetadataEntry => [ "label"; "description"; "floatValue" ]
  | I_EventIntMetadataEntry => [ "label"; "description"; "intValue"; "intRepr" ]
  | I_EventPipelineRunMetadataEntry => [ "label"; "description"; "runId" ]
  | I_EventAssetMetadataEntry => [ "label"; "description"; "assetKey" ]
  end.

(** Narrowing on the discriminator: the member interface whose [__typename]
    type admits the tag [tn]. *)
Definition narrow {I : Type} (all : list I) (typenames : I -> list string) (tn : string)
  : option I :=
  find (fun i => existsb (String.eqb tn) (typenames i)) all.

(** "One variant per discriminator value": values of one member interface
    never differ in their discriminator. *)
Definition oneTypenamePerInterface {U I : Type}
  (interfaceOf : U -> I) (typenameOf : U -> string) : Prop :=
  forall x y : U, interfaceOf x = interfaceOf y -> typenameOf x = typenameOf y.

(** Reading the two shared fields of a metadata entry off its object. *)
Definition readLabel (o : JsFields) : option string :=
  match getField "label" o with
  | Some (JsString s) => Some s
  | _ => None
  end.

Definition readDescription (o : JsFields) : option (option string) :=
  match getField "description" o with
  | Some (JsString s) => Some (Some s)
  | Some JsNull => Some None
  | _ => None
  end.

Definition metadataEntries_label
  (e : LatestMaterializationMetadataFragment_metadataEntries) : string :=
  match e with
  | metadataEntries_EventTableSchemaMetadataEntry v => EventTableSchemaMetadataEntry_label v
  | metadataEntries_EventPathMetadataEntry v => EventPathMetadataEntry_label v
  | metadataEntries_EventJsonMetadataEntry v => EventJsonMetadataEntry_label v
  | metadataEntries_EventUrlMetadataEntry v => EventUrlMetadataEntry_label v
  | metadataEntries_EventTextMetadataEntry v => EventTextMetadataEntry_label v
  | metadataEntries_EventMarkdownMetadataEntry v => EventMarkdownMetadataEntry_label v
  | metadataEntries_EventPythonArtifactMetadataEntry v =>
      EventPythonArtifactMetadataEntry_label v
  | metadataEntries_EventFloatMetadataEntry v => EventFloatMetadataEntry_label v
  | metadataEntries_EventIntMetadataEntry v => EventIntMetadataEntry_label v
  | metadataEntries_EventPipelineRunMetadataEntry v => EventPipelineRunMetadataEntry_label v
  | metadataEntries_EventAssetMetadataEntry v => EventAssetMetadataEntry_label v
  end.

Definition metadataEntries_description
  (e : LatestMaterializationMetadataFragment_metadataEntries) : option string :=
  match e with
  | metadataEntries_EventTableSchemaMetadataEntry v =>
      EventTableSchemaMetadataEntry_description v
  | metadataEntries_EventPathMetadataEntry v => EventPathMetadataEntry_description v
  | metadataEntries_EventJsonMetadataEntry v => EventJsonMetadataEntry_description v
  | metadataEntries_EventUrlMetadataEntry v => EventUrlMetadataEntry_description v
  | metadataEntries_EventTextMetadataEntry v => EventTextMetadataEntry_description v
  | metadataEntries_EventMarkdownMetadataEntry v => EventMarkdownMetadataEntry_description v
  | metadataEntries_EventPythonArtifactMetadataEntry v =>
      EventPythonArtifactMetadataEntry_description v
  | metadataEntries_EventFloatMetadataEntry v => EventFloatMetadataEntry_description v
  | metadataEntries_EventIntMetadataEntry v => EventIntMetadataEntry_description v
  | metadataEntries_EventPipelineRunMetadataEntry v =>
      EventPipelineRunMetadataEntry_description v
  | metadataEntries_EventAssetMetadataEntry v => EventAssetMetadataEntry_description v
  end.

(** The fields that make up the details of a run. *)
Definition runDetails : list string :=
  [ "id"; "runId"; "mode"; "pipelineName"; "pipelineSnapshotId"; "repositoryOrigin" ].

(** ** Rendered elements *)

Local Unset Elimination Schemes.
Inductive Node : Set :=
| Text (s : string)
| Element (tag : string) (className : string) (children : list Node).
Local Set Elimination Schemes.

(** ASCII whitespace, which separates the tokens of a [class] attribute: tab,
    line feed, form feed, carriage return and space. *)
Definition isAsciiWhitespace (c : ascii) : bool :=
  existsb (Ascii.eqb c)
    [ ascii_of_nat 9; ascii_of_nat 10; ascii_of_nat 12; ascii_of_nat 13; " "%char ].

(** The whitespace-separated class names of a [className] attribute. *)
Fixpoint splitSpaces (s : string) : list string :=
  match s with
  | EmptyString => [ EmptyString ]
  | String c rest =>
      if isAsciiWhitespace c then EmptyString :: splitSpaces rest
      else match splitSpaces rest with
           | [] => [ String c EmptyString ]
           | w :: ws => String c w :: ws
           end
  end.

Definition classList (className : string) : list string :=
  filter (fun w => negb (String.eqb w "")) (splitSpaces className).

Definition hasClass (c : string) (className : string) : bool :=
  existsb (String.eqb c) (classList className).

(** All the text below a node, in document order. *)
Fixpoint textContent (n : Node) : string :=
  match n with
  | Text s => s
  | Element _ _ children =>
      (fix all (l : list Node) : string :=
         match l with
         | [] => ""
         | c :: rest => (textContent c ++ all rest)%string
         end) children
  end.

(** The text that is displayed: elements of class [hidden] are not. *)
Fixpoint visibleText (n : Node) : string :=
  match n with
  | Text s => s
  | Element _ className children =>
      if hasClass "hidden" className then ""
      else (fix all (l : list Node) : string :=
              match l with
              | [] => ""
              | c :: rest => (visibleText c ++ all rest)%string
              end) children
  end.

Definition rootClassName (n : Node) : string :=
  match n with
  | Text _ => ""
  | Element _ className _ => className
  end.

Definition lowerAscii (c : ascii) : ascii :=
  let n := nat_of_ascii c in
  if Nat.leb 65 n && Nat.leb n 90 then ascii_of_nat (n + 32) else c.

Fixpoint lowercase (s : string) : string :=
  match s with
  | EmptyString => EmptyString
  | String c rest => String (lowerAscii c) (lowercase rest)
  end.

(** The style class keyed by a tag's name: ["Legacy"] gives ["legacy-tag"]. *)
Definition tagClass (name : string) : string := (lowercase name ++ "-tag")%string.

(** ** Components *)

Record BadgeProps : Set := { text : string }.

Section Components.

(** [import {getColorForString} from '../../util/getColorForString'] *)
Variable getColorForString : string -> string.

Definition Badge (props : BadgeProps) : Node :=
  let colors := getColorForString (text props) in
  Element "span"
    ("inline-flex items-center px-2.5 py-0.5 rounded-md text-sm font-medium " ++ colors)%string
    [ Text (text props) ].

End Components.

Definition Experimental (_ : unit) : Node :=
  Element "div" "experimental-tag"
    [ Element "span" "hidden" [ Text "(" ];
      Text "Experimental";
      Element "span" "hidden" [ Text ")" ] ].

Definition Deprecated (_ : unit) : Node :=
  Element "div" "deprecated-tag"
    [ Element "span" "hidden" [ Text "(" ];
      Text "Deprecated";
      Element "span" "hidden" [ Text ")" ] ].

Definition Legacy (_ : unit) : Node :=
  Element "div" "legacy-tag"
    [ Element "span" "hidden" [ Text "(" ];
      Text "Legacy";
      Element "span" "hidden" [ Text ")" ] ].

(** The shape shared by the three status tags. *)
Definition statusTag (name : string) : Node :=
  Element "div" (tagClass name)
    [ Element "span" "hidden" [ Text "(" ];
      Text name;
      Element "span" "hidden" [ Text ")" ] ].

(** ** The deterministic colour selector *)

Module Selector.

(** What a call yields: a palette entry, or one of the two ways the
    digest-modulo-N lookup can go wrong. *)
Inductive Outcome (StyleEntry : Type) : Type :=
| Style (e : StyleEntry)
| DivisionByZero
| IndexOutOfRange.
Arguments Style {StyleEntry} e.
Arguments DivisionByZero {StyleEntry}.
Arguments IndexOutOfRange {StyleEntry}.

Section WithDigest.

Context {StyleEntry : Type}.

(** The deterministic numeric digest of the input string.  The spec leaves
    the scheme open, so every definition below is stated for an arbitrary
    one. *)
Variable digest : string -> N.

(** Modelled from the spec: the palette, [util/getColorForString] being
    imported by the badge but not part of the sources.  "A fixed ordered
    sequence of N style entries ... defined at build time, immutable for
    the process lifetime". *)
Record Palette : Type := { entries : list StyleEntry }.

Definition size (p : Palette) : nat := List.length (entries p).

(** Modelled from the spec: the startup check absent from the sources,
    "a misconfigured empty palette (N=0) ... should be treated as a
    configuration precondition violation (fail fast at startup, not at
    call time)". *)
Definition loadPalette (es : list StyleEntry) : option Palette :=
  match es with
  | [] => None
  | _ :: _ => Some {| entries := es |}
  end.

(** Modelled from the spec: the reduction of the digest absent from the
    sources, "reduce it modulo the palette length N to select an index". *)
Definition reduce (d : N) (n : nat) : option nat :=
  match n with
  | O => None
  | S _ => Some (N.to_nat (d mod N.of_nat n))
  end.

Definition paletteIndex (p : Palette) (s : string) : option nat :=
  reduce (digest s) (size p).

(** Modelled from the spec: [selectStyle], the [getColorForString] of
    [util/getColorForString] that is absent from the sources, "compute a
    deterministic numeric digest of the input string ..., then reduce it
    modulo the palette length N to select an index". *)
Definition selectStyle (p : Palette) (s : string) : Outcome StyleEntry :=
  match paletteIndex p s with
  | None => DivisionByZero
  | Some i =>
      match nth_error (entries p) i with
      | Some e => Style e
      | None => IndexOutOfRange
      end
  end.

(** One process: the palette is checked once at startup, then every call
    of the run is served from it. *)
Definition runProcess (es : list StyleEntry) (calls : list string)
  : option (list (Outcome StyleEntry)) :=
  match loadPalette es with
  | None => None
  | Some p => Some (map (selectStyle p) calls)
  end.

End WithDigest.

(** Two digest schemes the spec names as examples. *)

Definition charCode (c : ascii) : N := N_of_ascii c.

(** Modelled from the spec: "a simple additive character-code digest". *)
Fixpoint additiveDigest (s : string) : N :=
  match s with
  | EmptyString => 0%N
  | String c rest => (charCode c + additiveDigest rest)%N
  end.

(** Modelled from the spec: "a simple polynomial/rolling character-code
    accumulation", here with multiplier 31. *)
Fixpoint rolling (h : N) (s : string) : N :=
  match s with
  | EmptyString => h
  | String c rest => rolling (h * 31 + charCode c)%N rest
  end.

Definition polynomialDigest (s : string) : N := rolling 0%N s.

(** A digest that ignores its input. *)
Definition constantDigest (_ : string) : N := 0%N.

(** A style entry: "a pair of foreground/background color tokens". *)
Record StyleEntry : Set := { background : string; foreground : string }.

(** A palette of size 8, as in the spec's example. *)
Definition examplePalette : list StyleEntry :=
  [ {| background := "bg-yellow-100"; foreground := "text-yellow-800" |};
    {| background := "bg-green-100"; foreground := "text-green-800" |};
    {| background := "bg-blue-100"; foreground := "text-blue-800" |};
    {| background := "bg-red-100"; foreground := "text-red-800" |};
    {| background := "bg-indigo-100"; foreground := "text-indigo-800" |};
    {| background := "bg-pink-100"; foreground := "text-pink-800" |};
    {| background := "bg-purple-100"; foreground := "text-purple-800" |};
    {| background := "bg-gray-100"; foreground := "text-gray-800" |} ].

(** The 26 single lowercase letters. *)
Definition lowercaseLetters : list string :=
  map (fun n => String (ascii_of_nat (97 + n)) EmptyString) (seq 0 26).

End Selector.

(** ** The objects the asset-graph query's values denote *)

Definition assetNodes_assetKey_object (v : AssetGraphQuery_assetNodes_assetKey) : JsFields :=
  [ ("__typename", JsString (literal (assetNodes_assetKey__typename v)));
    ("path", JsStrings (assetNodes_assetKey_path v)) ].

Definition assetNodes_dependencyKeys_object
  (v : AssetGraphQuery_assetNodes_dependencyKeys) : JsFields :=
  [ ("__typename", JsString (literal (assetNodes_dependencyKeys__typename v)));
    ("path", JsStrings (assetNodes_dependencyKeys_path v)) ].

Definition assetNodes_dependedByKeys_object
  (v : AssetGraphQuery_assetNodes_dependedByKeys) : JsFields :=
  [ ("__typename", JsString (literal (assetNodes_dependedByKeys__typename v)));
    ("path", JsStrings (assetNodes_dependedByKeys_path v)) ].

Definition assetNodes_object (v : AssetGraphQuery_assetNodes) : JsFields :=
  [ ("__typename", JsString (literal (assetNodes__typename v)));
    ("id", JsString (assetNodes_id v));
    ("opName", nullable JsString (assetNodes_opName v));
    ("description", nullable JsString (assetNodes_description v));
    ("partitionDefinition", nullable JsString (assetNodes_partitionDefinition v));
    ("assetKey", JsObject (assetNodes_assetKey_object (assetNodes_assetKey v)));
    ("dependencyKeys",
     JsArray (map (fun k => JsObject (assetNodes_dependencyKeys_object k))
                  (assetNodes_dependencyKeys v)));
    ("dependedByKeys",
     JsArray (map (fun k => JsObject (assetNodes_dependedByKeys_object k))
                  (assetNodes_dependedByKeys v))) ].

Definition AssetGraphQuery_object (v : AssetGraphQuery) : JsFields :=
  [ ("assetNodes",
     JsArray (map (fun n => JsObject (assetNodes_object n)) (AssetGraphQuery_assetNodes_ v))) ].

(** ** Every interface of the two files at once *)

(** A value of any interface the two files declare in full, that is, of every
    interface but [AssetGraphQueryVariables], whose one field has the imported
    type [PipelineSelector]; [AnyDeclared] below adds it.  The unions are
    covered by their member interfaces. *)
Inductive AnyInterface : Set :=
| Any_runOrError_RunNotFoundError
    (v : LatestMaterializationMetadataFragment_runOrError_RunNotFoundError)
| Any_runOrError_Run_repositoryOrigin
    (v : LatestMaterializationMetadataFragment_runOrError_Run_repositoryOrigin)
| Any_runOrError_Run (v : LatestMaterializationMetadataFragment_runOrError_Run)
| Any_stepStats (v : LatestMaterializationMetadataFragment_stepStats)
| Any_EventTableSchemaMetadataEntry
    (v : LatestMaterializationMetadataFragment_metadataEntries_EventTableSchemaMetadataEntry)
| Any_EventPathMetadataEntry
    (v : LatestMaterializationMetadataFragment_metadataEntries_EventPathMetadataEntry)
| Any_EventJsonMetadataEntry
    (v : LatestMaterializationMetadataFragment_metadataEntries_EventJsonMetadataEntry)
| Any_EventUrlMetadataEntry
    (v : LatestMaterializationMetadataFragment_metadataEntries_EventUrlMetadataEntry)
| Any_EventTextMetadataEntry
    (v : LatestMaterializationMetadataFragment_metadataEntries_EventTextMetadataEntry)
| Any_EventMarkdownMetadataEntry
    (v : LatestMaterializationMetadataFragment_metadataEntries_EventMarkdownMetadataEntry)
| Any_EventPythonArtifactMetadataEntry
    (v : LatestMaterializationMetadataFragment_metadataEntries_EventPythonArtifactMetadataEntry)
| Any_EventFloatMetadataEntry
    (v : LatestMaterializationMetadataFragment_metadataEntries_EventFloatMetadataEntry)
| Any_EventIntMetadataEntry
    (v : LatestMaterializationMetadataFragment_metadataEntries_EventIntMetadataEntry)
| Any_EventPipelineRunMetadataEntry
    (v : LatestMaterializationMetadataFragment_metadataEntries_EventPipelineRunMetadataEntry)
| Any_EventAssetMetadataEntry_assetKey
    (v : LatestMaterializationMetadataFragment_metadataEntries_EventAssetMetadataEntry_assetKey)
| Any_EventAssetMetadataEntry
    (v : LatestMaterializationMetadataFragment_metadataEntries_EventAssetMetadataEntry)
| Any_assetLineage_assetKey (v : LatestMaterializationMetadataFragment_assetLineage_assetKey)
| Any_assetLineage (v : LatestMaterializationMetadataFragment_assetLineage)
| Any_LatestMaterializationMetadataFragment (v : LatestMaterializationMetadataFragment)
| Any_assetNodes_assetKey (v : AssetGraphQuery_assetNodes_assetKey)
| Any_assetNodes_dependencyKeys (v : AssetGraphQuery_assetNodes_dependencyKeys)
| Any_assetNodes_dependedByKeys (v : AssetGraphQuery_assetNodes_dependedByKeys)
| Any_assetNodes (v : AssetGraphQuery_assetNodes)
| Any_AssetGraphQuery (v : AssetGraphQuery).

Definition any_object (x : AnyInterface) : JsFields :=
  match x with
  | Any_runOrError_RunNotFoundError v => RunNotFoundError_object v
  | Any_runOrError_Run_repositoryOrigin v => repositoryOrigin_object v
  | Any_runOrError_Run v => Run_object v
  | Any_stepStats v => stepStats_object v
  | Any_EventTableSchemaMetadataEntry v => EventTableSchemaMetadataEntry_object v
  | Any_EventPathMetadataEntry v => EventPathMetadataEntry_object v
  | Any_EventJsonMetadataEntry v => EventJsonMetadataEntry_object v
  | Any_EventUrlMetadataEntry v => EventUrlMetadataEntry_object v
  | Any_EventTextMetadataEntry v => EventTextMetadataEntry_object v
  | Any_EventMarkdownMetadataEntry v => EventMarkdownMetadataEntry_object v
  | Any_EventPythonArtifactMetadataEntry v => EventPythonArtifactMetadataEntry_object v
  | Any_EventFloatMetadataEntry v => EventFloatMetadataEntry_object v
  | Any_EventIntMetadataEntry v => EventIntMetadataEntry_object v
  | Any_EventPipelineRunMetadataEntry v => EventPipelineRunMetadataEntry_object v
  | Any_EventAssetMetadataEntry_assetKey v => EventAssetMetadataEntry_assetKey_object v
  | Any_EventAssetMetadataEntry v => EventAssetMetadataEntry_object v
  | Any_assetLineage_assetKey v => assetLineage_assetKey_object v
  | Any_assetLineage v => assetLineage_object v
  | Any_LatestMaterializationMetadataFragment v =>
      LatestMaterializationMetadataFragment_object v
  | Any_assetNodes_assetKey v => assetNodes_assetKey_object v
  | Any_assetNodes_dependencyKeys v => assetNodes_dependencyKeys_object v
  | Any_assetNodes_dependedByKeys v => assetNodes_dependedByKeys_object v
  | Any_assetNodes v => assetNodes_object v
  | Any_AssetGraphQuery v => AssetGraphQuery_object v
  end.

Definition isQueryRoot (x : AnyInterface) : bool :=
  match x with
  | Any_AssetGraphQuery _ => true
  | _ => false
  end.

(** [o.__typename], when the object has one. *)
Definition typenameOf (o : JsFields) : option string :=
  match getField "__typename" o with
  | Some (JsString s) => Some s
  | _ => None
  end.

(** The objects an interface admits, through its view. *)
Definition denotes {A : Type} (view : A -> JsFields) (o : JsFields) : Prop :=
  exists a : A, view a = o.

(** A chain of property reads [v?.k1?.k2 ...]: [None] as soon as a step finds
    no object or no such key. *)
Fixpoint getPath (path : list string) (v : JsValue) : option JsValue :=
  match path with
  | [] => Some v
  | k :: rest =>
      match v with
      | JsObject o =>
          match getField k o with
          | Some v' => getPath rest v'
          | None => None
          end
      | _ => None
      end
  end.

(** The elements of an array value; [None] for anything else. *)
Definition elements (v : JsValue) : option (list JsValue) :=
  match v with
  | JsArray xs => Some xs
  | _ => None
  end.

(** The fields each interface declares with a type [T | null]. *)
Definition nullableKeys (x : AnyInterface) : list string :=
  match x with
  | Any_runOrError_RunNotFoundError _ => []
  | Any_runOrError_Run_repositoryOrigin _ => []
  | Any_runOrError_Run _ => [ "pipelineSnapshotId"; "repositoryOrigin" ]
  | Any_stepStats _ => [ "endTime"; "startTime" ]
  | Any_EventTableSchemaMetadataEntry _ => [ "description" ]
  | Any_EventPathMetadataEntry _ => [ "description" ]
  | Any_EventJsonMetadataEntry _ => [ "description" ]
  | Any_EventUrlMetadataEntry _ => [ "description" ]
  | Any_EventTextMetadataEntry _ => [ "description" ]
  | Any_EventMarkdownMetadataEntry _ => [ "description" ]
  | Any_EventPythonArtifactMetadataEntry _ => [ "description" ]
  | Any_EventFloatMetadataEntry _ => [ "description"; "floatValue" ]
  | Any_EventIntMetadataEntry _ => [ "description"; "intValue" ]
  | Any_EventPipelineRunMetadataEntry _ => [ "description" ]
  | Any_EventAssetMetadataEntry_assetKey _ => []
  | Any_EventAssetMetadataEntry _ => [ "description" ]
  | Any_assetLineage_assetKey _ => []
  | Any_assetLineage _ => []
  | Any_LatestMaterializationMetadataFragment _ => [ "partition"; "stepKey" ]
  | Any_assetNodes_assetKey _ => []
  | Any_assetNodes_dependencyKeys _ => []
  | Any_assetNodes_dependedByKeys _ => []
  | Any_assetNodes _ => [ "opName"; "description"; "partitionDefinition" ]
  | Any_AssetGraphQuery _ => []
  end.

(** An array element that is an object the interface behind [view] admits. *)
Definition elementOf {A : Type} (view : A -> JsFields) (v : JsValue) : Prop :=
  exists o, v = JsObject o /\ denotes view o.

(** ** Every interface, the query variables included *)

Section WithPipelineSelector.

(** [import { PipelineSelector } from "./../../../types/globalTypes"]: the
    type and the JavaScript value each of its inhabitants denotes. *)
Variable PipelineSelector : Type.
Variable PipelineSelector_value : PipelineSelector -> JsValue.

Definition AssetGraphQueryVariables_object
  (v : AssetGraphQueryVariables PipelineSelector) : JsFields :=
  [ ("pipelineSelector", PipelineSelector_value (pipelineSelector PipelineSelector v)) ].

(** A value of any of the interfaces the two files declare. *)
Inductive AnyDeclared : Type :=
| Declared (x : AnyInterface)
| Declared_AssetGraphQueryVariables (v : AssetGraphQueryVariables PipelineSelector).

Definition declared_object (x : AnyDeclared) : JsFields :=
  match x with
  | Declared i => any_object i
  | Declared_AssetGraphQueryVariables v => AssetGraphQueryVariables_object v
  end.

(** The two interfaces declared without a [__typename]: the query root and
    the query variables. *)
Definition isUntagged (x : AnyDeclared) : bool :=
  match x with
  | Declared i => isQueryRoot i
  | Declared_AssetGraphQueryVariables _ => true
  end.

End WithPipelineSelector.

Arguments Declared {PipelineSelector} x.
Arguments Declared_AssetGraphQueryVariables {PipelineSelector} v.
Arguments declared_object {PipelineSelector} PipelineSelector_value x.
Arguments isUntagged {PipelineSelector} x.

(** * Properties of the generated types *)

(** Sample values used below. *)
Definition runNotFound : LatestMaterializationMetadataFragment_runOrError :=
  runOrError_RunNotFoundError {| RunNotFoundError__typename := lit_l |}.

Definition pythonError : LatestMaterializationMetadataFragment_runOrError :=
  runOrError_RunNotFoundError {| RunNotFoundError__typename := lit_r |}.

Definition sampleRun : LatestMaterializationMetadataFragment_runOrError :=
  runOrError_Run
    {| Run__typename := lit;
       Run_id := "r1";
       Run_runId := "r1";
       Run_mode := "default";
       Run_pipelineName := "etl";
       Run_pipelineSnapshotId := None;
       Run_repositoryOrigin := None |}.

Ltac crush_strings := simpl; intuition (try discriminate; try congruence).

Lemma runOrError_typenames_NoDup :
  NoDup (flat_map runOrError_typenames runOrError_interfaces).
Proof.
  simpl. repeat (constructor; [crush_strings |]). constructor.
Qed.

Lemma metadataEntries_typenames_NoDup :
  NoDup (flat_map metadataEntries_typenames metadataEntries_interfaces).
Proof.
  simpl. repeat (constructor; [crush_strings |]). constructor.
Qed.

(** C4, as the claim words it, fails: the interface
    [..._runOrError_RunNotFoundError] has values tagged ["RunNotFoundError"]
    and values tagged ["PythonError"], so it is not true that both unions have
    one member interface per [__typename] value. *)
Lemma one_typename_per_interface_fails :
  runOrError_interfaceOf runNotFound = runOrError_interfaceOf pythonError /\
  runOrError_typename runNotFound = "RunNotFoundError" /\
  runOrError_typename pythonError = "PythonError" /\
  ~ (oneTypenamePerInterface runOrError_interfaceOf runOrError_typename /\
     oneTypenamePerInterface metadataEntries_interfaceOf metadataEntries_typename).
Proof.
  repeat split; try reflexivity.
  intros [H _]. specialize (H runNotFound pythonError eq_refl). discriminate H.
Qed.

(** C4, amended: both unions are discriminated by [__typename]: the tag a
    value carries is one of those its member interface admits and is the one
    stored under ["__typename"], no tag is admitted by two member interfaces,
    so narrowing on the tag finds the value's interface; every member interface
    admits exactly one tag, except [..._RunNotFoundError] and
    [..._EventTableSchemaMetadataEntry], which admit two; and the keys of a
    value are ["__typename"] followed by the fields its own interface
    declares. *)
Theorem unions_discriminated_by_typename :
  (forall r,
      getField "__typename" (runOrError_object r) = Some (JsString (runOrError_typename r)) /\
      In (runOrError_typename r) (runOrError_typenames (runOrError_interfaceOf r)) /\
      narrow runOrError_interfaces runOrError_typenames (runOrError_typename r)
        = Some (runOrError_interfaceOf r) /\
      keys (runOrError_object r)
        = "__typename" :: runOrError_ownFields (runOrError_interfaceOf r)) /\
  (forall e,
      getField "__typename" (metadataEntries_object e)
        = Some (JsString (metadataEntries_typename e)) /\
      In (metadataEntries_typename e)
         (metadataEntries_typenames (metadataEntries_interfaceOf e)) /\
      narrow metadataEntries_interfaces metadataEntries_typenames (metadataEntries_typename e)
        = Some (metadataEntries_interfaceOf e) /\
      keys (metadataEntries_object e)
        = "__typename" :: metadataEntries_ownFields (metadataEntries_interfaceOf e)) /\
  NoDup (flat_map runOrError_typenames runOrError_interfaces) /\
  NoDup (flat_map metadataEntries_typenames metadataEntries_interfaces) /\
  (forall i, List.length (runOrError_typenames i)
             = match i with I_RunNotFoundError => 2 | _ => 1 end) /\
  (forall i, List.length (metadataEntries_typenames i)
             = match i with I_EventTableSchemaMetadataEntry => 2 | _ => 1 end).
Proof.
  split; [| split; [| split; [| split; [| split]]]].
  - intros [[[|]] | [[] ? ? ? ? ? ?]]; cbn; intuition.
  - intros [[[|] ? ?] | [[] ? ? ?] | [[] ? ? ?] | [[] ? ? ?] | [[] ? ? ?] | [[] ? ? ?]
           | [[] ? ? ? ?] | [[] ? ? ?] | [[] ? ? ? ?] | [[] ? ? ?] | [[] ? ? ?]];
      cbn; intuition.
  - exact runOrError_typenames_NoDup.
  - exact metadataEntries_typenames_NoDup.
  - intros []; reflexivity.
  - intros []; reflexivity.
Qed.

(** C9: every member of the [metadataEntries] union stores a string under
    ["label"] and a string or [null] under ["description"]; both are read off
    the object of any value of the union by the key alone, with no look at
    ["__typename"]. *)
Theorem metadataEntries_label_description :
  forall e : LatestMaterializationMetadataFragment_metadataEntries,
    getField "label" (metadataEntries_object e)
      = Some (JsString (metadataEntries_label e)) /\
    getField "description" (metadataEntries_object e)
      = Some (nullable JsString (metadataEntries_description e)) /\
    readLabel (metadataEntries_object e) = Some (metadataEntries_label e) /\
    readDescription (metadataEntries_object e) = Some (metadataEntries_description e) /\
    In "label" (metadataEntries_ownFields (metadataEntries_interfaceOf e)) /\
    In "description" (metadataEntries_ownFields (metadataEntries_interfaceOf e)).
Proof.
  intros e.
  assert (Hl : getField "label" (metadataEntries_object e)
               = Some (JsString (metadataEntries_label e)))
    by (destruct e; reflexivity).
  assert (Hd : getField "description" (metadataEntries_object e)
               = Some (nullable JsString (metadataEntries_description e)))
    by (destruct e; reflexivity).
  unfold readLabel, readDescription. rewrite Hl, Hd.
  repeat split.
  - destruct (metadataEntries_description e); reflexivity.
  - destruct e; simpl; auto.
  - destruct e; simpl; auto.
Qed.

(** C10: a value of the [runOrError] union whose tag is not ["Run"] is tagged
    ["RunNotFoundError"] or ["PythonError"] and has no key but
    ["__typename"]; all six run details are present exactly when the tag is
    ["Run"], and so is any one of them. *)
Theorem runOrError_details_iff_Run :
  forall r : LatestMaterializationMetadataFragment_runOrError,
    (runOrError_typename r = "Run"
     <-> forallb (fun k => hasField k (runOrError_object r)) runDetails = true) /\
    (runOrError_typename r = "Run"
     <-> existsb (fun k => hasField k (runOrError_object r)) runDetails = true) /\
    (runOrError_typename r <> "Run" ->
     keys (runOrError_object r) = [ "__typename" ] /\
     (runOrError_typename r = "RunNotFoundError" \/ runOrError_typename r = "PythonError")).
Proof.
  intros [[[|]] | [[] ? ? ? ? ? ?]]; cbn; repeat split;
    intros; try discriminate; try congruence; auto;
    exfalso; match goal with H : _ <> _ |- _ => apply H; reflexivity end.
Qed.

Lemma runOrError_details_iff_Run_witness :
  runOrError_typename pythonError <> "Run" /\
  keys (runOrError_object pythonError) = [ "__typename" ] /\
  (runOrError_typename pythonError = "RunNotFoundError"
   \/ runOrError_typename pythonError = "PythonError") /\
  forallb (fun k => hasField k (runOrError_object sampleRun)) runDetails = true.
Proof.
  assert (H : runOrError_typename pythonError <> "Run") by (simpl; discriminate).
  split; [exact H |].
  split; [exact (proj1 (proj2 (proj2 (runOrError_details_iff_Run pythonError)) H)) |].
  split; [exact (proj2 (proj2 (proj2 (runOrError_details_iff_Run pythonError)) H)) |].
  apply (proj1 (proj1 (runOrError_details_iff_Run sampleRun))). reflexivity.
Defined.

(** * Properties of the components *)

Lemma classList_Badge (colors : string) :
  classList
    ("inline-flex items-center px-2.5 py-0.5 rounded-md text-sm font-medium " ++ colors)%string
  = [ "inline-flex"; "items-center"; "px-2.5"; "py-0.5"; "rounded-md"; "text-sm";
      "font-medium" ] ++ classList colors.
Proof.
  unfold classList. cbn. reflexivity.
Qed.

(** C8: [Experimental], [Deprecated] and [Legacy] ignore their argument and
    render the same element on every call: a [div] whose class is the tag's
    own name in lowercase followed by ["-tag"], whose displayed text is
    exactly that name, and whose only other content is a pair of parentheses
    in [span]s of class [hidden].  [Badge] renders its [text] in a [span]
    whose class names are seven fixed ones followed by those of
    [getColorForString text]. *)
Theorem status_tags_and_badge :
  (forall u, Experimental u = statusTag "Experimental") /\
  (forall u, Deprecated u = statusTag "Deprecated") /\
  (forall u, Legacy u = statusTag "Legacy") /\
  (forall u,
      visibleText (Experimental u) = "Experimental" /\
      rootClassName (Experimental u) = "experimental-tag" /\
      textContent (Experimental u) = "(Experimental)") /\
  (forall u,
      visibleText (Deprecated u) = "Deprecated" /\
      rootClassName (Deprecated u) = "deprecated-tag" /\
      textContent (Deprecated u) = "(Deprecated)") /\
  (forall u,
      visibleText (Legacy u) = "Legacy" /\
      rootClassName (Legacy u) = "legacy-tag" /\
      textContent (Legacy u) = "(Legacy)") /\
  (forall (getColorForString : string -> string) (props : BadgeProps),
      Badge getColorForString props
        = Element "span"
            ("inline-flex items-center px-2.5 py-0.5 rounded-md text-sm font-medium "
               ++ getColorForString (text props))%string
            [ Text (text props) ] /\
      classList (rootClassName (Badge getColorForString props))
        = [ "inline-flex"; "items-center"; "px-2.5"; "py-0.5"; "rounded-md"; "text-sm";
            "font-medium" ] ++ classList (getColorForString (text props)) /\
      textContent (Badge getColorForString props) = text props).
Proof.
  repeat split; try reflexivity; try apply classList_Badge.
  simpl. induction (text props) as [| c s IH]; simpl; [reflexivity | f_equal; exact IH].
Qed.

(** * Properties of the colour selector *)

Import Selector.

Section SelectorFacts.

Context {Entry : Type}.
Variable digest : string -> N.

Lemma reduce_in_range (d : N) (n : nat) :
  n <> 0 ->
  reduce d n = Some (N.to_nat (d mod N.of_nat n)) /\ N.to_nat (d mod N.of_nat n) < n.
Proof.
  intros Hn. destruct n as [| m]; [contradiction |].
  split; [reflexivity |].
  assert (Hlt : (d mod N.of_nat (S m) < N.of_nat (S m))%N)
    by (apply N.mod_lt; lia).
  lia.
Qed.

Lemma reduce_None (d : N) (n : nat) : reduce d n = None <-> n = 0.
Proof.
  destruct n; simpl; split; intros H; try reflexivity; discriminate H.
Qed.

Lemma loadPalette_Some (es : list Entry) (p : Palette) :
  loadPalette es = Some p -> entries p = es /\ 1 <= size p.
Proof.
  unfold loadPalette, size. destruct es as [| e es']; intros H; [discriminate H |].
  injection H as <-. simpl. split; [reflexivity | lia].
Qed.

Lemma selectStyle_in_range (p : Palette) (s : string) :
  1 <= size p ->
  exists e : Entry,
    paletteIndex digest p s = Some (N.to_nat (digest s mod N.of_nat (size p))) /\
    nth_error (entries p) (N.to_nat (digest s mod N.of_nat (size p))) = Some e /\
    selectStyle digest p s = Style e.
Proof.
  intros Hsize.
  destruct (reduce_in_range (digest s) (size p)) as [Hred Hlt]; [lia |].
  unfold selectStyle, paletteIndex. rewrite Hred.
  destruct (nth_error (entries p) (N.to_nat (digest s mod N.of_nat (size p))))
    as [e |] eqn:Hnth.
  - exists e. repeat split.
  - apply nth_error_None in Hnth. unfold size in *. lia.
Qed.

End SelectorFacts.

(** C2: on a palette that passed the startup check, every call returns an
    entry of the palette, namely the one at index [digest s mod N]. *)
Theorem selectStyle_member :
  forall (Entry : Type) (digest : string -> N) (es : list Entry) (p : Palette) (s : string),
    loadPalette es = Some p ->
    exists (i : nat) (e : Entry),
      i = N.to_nat (digest s mod N.of_nat (List.length es)) /\
      i < List.length es /\
      nth_error es i = Some e /\
      selectStyle digest p s = Style e /\
      In e es.
Proof.
  intros Entry digest es p s Hload.
  destruct (loadPalette_Some es p Hload) as [Hes Hsize].
  destruct (selectStyle_in_range digest p s Hsize) as [e [_ [Hnth Hsel]]].
  unfold size in *. rewrite Hes in *.
  exists (N.to_nat (digest s mod N.of_nat (List.length es))), e.
  repeat split; try assumption.
  - apply nth_error_Some. rewrite Hnth. discriminate.
  - eapply nth_error_In. exact Hnth.
Qed.

Lemma selectStyle_member_witness :
  exists (i : nat) (e : StyleEntry),
    i = N.to_nat (additiveDigest "Legacy" mod N.of_nat (List.length examplePalette)) /\
    i < List.length examplePalette /\
    nth_error examplePalette i = Some e /\
    selectStyle additiveDigest {| entries := examplePalette |} "Legacy" = Style e /\
    In e examplePalette.
Proof.
  exact (selectStyle_member StyleEntry additiveDigest examplePalette
           {| entries := examplePalette |} "Legacy" eq_refl).
Defined.

(** C3: on a palette that passed the startup check, [selectStyle] yields a
    palette entry for every string, never an error; for the empty string it
    yields the entry at index [digest "" mod N]. *)
Theorem selectStyle_total :
  forall (Entry : Type) (digest : string -> N) (es : list Entry) (p : Palette),
    loadPalette es = Some p ->
    (forall s : string, exists e : Entry, selectStyle digest p s = Style e) /\
    (exists e : Entry,
        selectStyle digest p "" = Style e /\
        nth_error es (N.to_nat (digest "" mod N.of_nat (List.length es))) = Some e).
Proof.
  intros Entry digest es p Hload.
  destruct (loadPalette_Some es p Hload) as [Hes Hsize].
  split.
  - intros s. destruct (selectStyle_in_range digest p s Hsize) as [e [_ [_ Hsel]]].
    exists e. exact Hsel.
  - destruct (selectStyle_in_range digest p "" Hsize) as [e [_ [Hnth Hsel]]].
    exists e. split; [exact Hsel |].
    unfold size in Hnth. rewrite Hes in Hnth. exact Hnth.
Qed.

Lemma selectStyle_total_witness :
  exists e : StyleEntry,
    selectStyle polynomialDigest {| entries := examplePalette |} "" = Style e /\
    nth_error examplePalette
      (N.to_nat (polynomialDigest "" mod N.of_nat (List.length examplePalette))) = Some e.
Proof.
  exact (proj2 (selectStyle_total StyleEntry polynomialDigest examplePalette
                  {| entries := examplePalette |} eq_refl)).
Defined.

(** C7: the empty palette is refused by the startup check, and only it, so a
    process configured with it serves no call at all; a palette that passed
    the check has at least one entry, and on it no call ends in the
    division-by-zero branch or out of range.  That branch is taken exactly
    when N = 0. *)
Theorem empty_palette_fails_at_startup :
  forall (Entry : Type) (digest : string -> N),
    loadPalette (@nil Entry) = None /\
    (forall calls, runProcess digest (@nil Entry) calls = None) /\
    (forall es : list Entry, loadPalette es = None <-> es = []) /\
    (forall (p : @Palette Entry) (s : string),
        selectStyle digest p s = DivisionByZero <-> size p = 0) /\
    (forall (es : list Entry) (p : Palette),
        loadPalette es = Some p ->
        1 <= size p /\
        forall s : string,
          paletteIndex digest p s <> None /\
          selectStyle digest p s <> DivisionByZero /\
          selectStyle digest p s <> IndexOutOfRange).
Proof.
  intros Entry digest.
  split; [reflexivity |]. split; [reflexivity |]. split; [| split].
  - intros [| e es]; simpl; split; intros H; try reflexivity; discriminate H.
  - intros p s. split.
    + intros Hsel. destruct (Nat.eq_dec (size p) 0) as [Hz | Hnz]; [exact Hz |].
      destruct (selectStyle_in_range digest p s) as [e [_ [_ He]]]; [lia |].
      rewrite He in Hsel. discriminate Hsel.
    + intros Hz. unfold selectStyle, paletteIndex. rewrite Hz. reflexivity.
  - intros es p Hload.
    destruct (loadPalette_Some es p Hload) as [_ Hsize].
    split; [exact Hsize |].
    intros s. destruct (selectStyle_in_range digest p s Hsize) as [e [Hidx [_ Hsel]]].
    rewrite Hidx, Hsel. repeat split; discriminate.
Qed.

Lemma empty_palette_fails_at_startup_witness :
  1 <= size {| entries := examplePalette |} /\
  forall s : string,
    paletteIndex additiveDigest {| entries := examplePalette |} s <> None /\
    selectStyle additiveDigest {| entries := examplePalette |} s <> DivisionByZero /\
    selectStyle additiveDigest {| entries := examplePalette |} s <> IndexOutOfRange.
Proof.
  exact (proj2 (proj2 (proj2 (proj2
           (empty_palette_fails_at_startup StyleEntry additiveDigest))))
           examplePalette {| entries := examplePalette |} eq_refl).
Defined.

(** * What the open choice of digest leaves undetermined

    Whether single letters spread over the palette, and whether ["ab"] and
    ["ba"] are told apart, is decided by the digest scheme alone; the schemes
    the spec names as examples disagree. *)

(** The regression example of the spec: additive digest, palette of size 8. *)
Remark additive_Legacy_index :
  paletteIndex additiveDigest {| entries := examplePalette |} "Legacy" = Some 5.
Proof. reflexivity. Qed.

(** The additive digest ties every pair of anagrams, on every palette. *)
Remark additive_ties_ab_ba :
  forall (Entry : Type) (p : @Palette Entry),
    selectStyle additiveDigest p "ab" = selectStyle additiveDigest p "ba".
Proof. intros Entry p. reflexivity. Qed.

(** The base-31 polynomial digest separates them on a palette of size 8 ... *)
Remark polynomial_separates_ab_ba :
  selectStyle polynomialDigest {| entries := examplePalette |} "ab"
  <> selectStyle polynomialDigest {| entries := examplePalette |} "ba".
Proof. cbv. discriminate. Qed.

(** ... and ties them on one of size 2, their digests being 30 apart. *)
Remark polynomial_ties_ab_ba_on_two :
  forall a b : StyleEntry,
    selectStyle polynomialDigest {| entries := [ a; b ] |} "ab"
    = selectStyle polynomialDigest {| entries := [ a; b ] |} "ba".
Proof. intros a b. reflexivity. Qed.

(** The additive digest sends ["a"] and ["b"] to different entries of a
    palette of size 8. *)
Remark additive_spreads_letters :
  In "a" lowercaseLetters /\ In "b" lowercaseLetters /\
  selectStyle additiveDigest {| entries := examplePalette |} "a"
  <> selectStyle additiveDigest {| entries := examplePalette |} "b".
Proof.
  split; [simpl; auto |]. split; [simpl; auto |]. cbv. discriminate.
Qed.

(** A digest that ignores its input sends every string to one entry. *)
Remark constant_collapses :
  forall (Entry : Type) (p : @Palette Entry) (s t : string),
    selectStyle constantDigest p s = selectStyle constantDigest p t.
Proof. intros Entry p s t. reflexivity. Qed.

(** * Further properties of the generated types *)

Ltac split_literals :=
  repeat match goal with
         | v : Lit2 _ _ |- _ => destruct v
         end.

(** X1: across every interface of the two files, two objects that carry the
    same [__typename] tag have the same keys in the same order, whatever
    interfaces they belong to.  (The query root and the query variables carry
    no tag, and differ in their keys.) *)
Theorem same_typename_same_keys :
  forall (PipelineSelector : Type) (PipelineSelector_value : PipelineSelector -> JsValue)
         (x y : AnyDeclared PipelineSelector) (tn : string),
    typenameOf (declared_object PipelineSelector_value x) = Some tn ->
    typenameOf (declared_object PipelineSelector_value y) = Some tn ->
    keys (declared_object PipelineSelector_value x)
    = keys (declared_object PipelineSelector_value y).
Proof.
  intros PS value x y tn.
  destruct x as [x | vx]; [| cbn; intros H; discriminate H].
  destruct y as [y | vy]; [| cbn; intros _ H; discriminate H].
  destruct x as [[]|[]|[]|[]|[]|[]|[]|[]|[]|[]|[]|[]|[]|[]|[]|[]|[]|[]|[]|[]|[]|[]|[]|[]];
    split_literals;
    destruct y as [[]|[]|[]|[]|[]|[]|[]|[]|[]|[]|[]|[]|[]|[]|[]|[]|[]|[]|[]|[]|[]|[]|[]|[]];
    split_literals;
    cbn; intros H1 H2;
    first [ reflexivity
          | discriminate H1
          | discriminate H2
          | rewrite <- H1 in H2; discriminate H2 ].
Qed.

Lemma same_typename_same_keys_witness :
  keys (declared_object (fun _ : unit => JsNull)
          (Declared (Any_assetNodes_dependencyKeys
                       {| assetNodes_dependencyKeys__typename := lit;
                          assetNodes_dependencyKeys_path := [ "a"; "b" ] |})))
  = keys (declared_object (fun _ : unit => JsNull)
            (Declared (Any_assetLineage_assetKey
                         {| assetLineage_assetKey__typename := lit;
                            assetLineage_assetKey_path := [] |}))).
Proof.
  apply (same_typename_same_keys unit (fun _ => JsNull) _ _ "AssetKey"); reflexivity.
Defined.

(** X2: an object has no [__typename] exactly when it is the query root
    [AssetGraphQuery] or the query variables [AssetGraphQueryVariables]; every
    other interface of the two files stores its tag under the first key, and
    no interface binds a key twice. *)
Theorem typename_first_key_unless_untagged :
  forall (PipelineSelector : Type) (PipelineSelector_value : PipelineSelector -> JsValue)
         (x : AnyDeclared PipelineSelector),
    (typenameOf (declared_object PipelineSelector_value x) = None
     <-> isUntagged x = true) /\
    (isUntagged x = false ->
     hd_error (keys (declared_object PipelineSelector_value x)) = Some "__typename") /\
    NoDup (keys (declared_object PipelineSelector_value x)).
Proof.
  intros PS value x.
  destruct x as [x | vx].
  - destruct x as [[]|[]|[]|[]|[]|[]|[]|[]|[]|[]|[]|[]|[]|[]|[]|[]|[]|[]|[]|[]|[]|[]|[]|[]];
      split_literals.
    all: split; [cbn; split; intros H; first [reflexivity | discriminate H] |].
    all: split; [cbn; intros H; first [reflexivity | discriminate H] |].
    all: cbn; repeat (constructor; [crush_strings |]); constructor.
  - cbn. split; [split; reflexivity |]. split; [intros H; discriminate H |].
    constructor; [simpl; tauto | constructor].
Qed.

Lemma typename_first_key_unless_untagged_witness :
  hd_error (keys (declared_object (fun _ : unit => JsNull)
                    (Declared (Any_runOrError_RunNotFoundError
                                 {| RunNotFoundError__typename := lit_r |}))))
  = Some "__typename".
Proof.
  apply (proj1 (proj2 (typename_first_key_unless_untagged unit (fun _ => JsNull)
                         (Declared (Any_runOrError_RunNotFoundError
                                      {| RunNotFoundError__typename := lit_r |}))))).
  reflexivity.
Defined.

(** X3: the five [AssetKey] interfaces of the two files (the asset node's
    [assetKey], [dependencyKeys] and [dependedByKeys], the lineage's
    [assetKey] and the asset metadata entry's [assetKey]) admit the same
    objects: those made of the tag ["AssetKey"] and a [path] array of
    strings. *)
Theorem AssetKey_interfaces_coincide :
  forall o : JsFields,
    (denotes assetNodes_assetKey_object o
     <-> exists p, o = [ ("__typename", JsString "AssetKey"); ("path", JsStrings p) ]) /\
    (denotes assetNodes_assetKey_object o <-> denotes assetNodes_dependencyKeys_object o) /\
    (denotes assetNodes_assetKey_object o <-> denotes assetNodes_dependedByKeys_object o) /\
    (denotes assetNodes_assetKey_object o <-> denotes assetLineage_assetKey_object o) /\
    (denotes assetNodes_assetKey_object o
     <-> denotes EventAssetMetadataEntry_assetKey_object o).
Proof.
  intros o. unfold denotes. repeat split.
  - intros [[[] p] <-]. exists p. reflexivity.
  - intros [p ->]. exists {| assetNodes_assetKey__typename := lit;
                             assetNodes_assetKey_path := p |}. reflexivity.
  - intros [[[] p] <-]. exists {| assetNodes_dependencyKeys__typename := lit;
                                  assetNodes_dependencyKeys_path := p |}. reflexivity.
  - intros [[[] p] <-]. exists {| assetNodes_assetKey__typename := lit;
                                  assetNodes_assetKey_path := p |}. reflexivity.
  - intros [[[] p] <-]. exists {| assetNodes_dependedByKeys__typename := lit;
                                  assetNodes_dependedByKeys_path := p |}. reflexivity.
  - intros [[[] p] <-]. exists {| assetNodes_assetKey__typename := lit;
                                  assetNodes_assetKey_path := p |}. reflexivity.
  - intros [[[] p] <-]. exists {| assetLineage_assetKey__typename := lit;
                                  assetLineage_assetKey_path := p |}. reflexivity.
  - intros [[[] p] <-]. exists {| assetNodes_assetKey__typename := lit;
                                  assetNodes_assetKey_path := p |}. reflexivity.
  - intros [[[] p] <-]. exists {| EventAssetMetadataEntry_assetKey__typename := lit;
                                  EventAssetMetadataEntry_assetKey_path := p |}. reflexivity.
  - intros [[[] p] <-]. exists {| assetNodes_assetKey__typename := lit;
                                  assetNodes_assetKey_path := p |}. reflexivity.
Qed.

Lemma AssetKey_interfaces_coincide_witness :
  denotes assetLineage_assetKey_object
    (assetNodes_assetKey_object
       {| assetNodes_assetKey__typename := lit; assetNodes_assetKey_path := [ "db"; "t" ] |}).
Proof.
  apply (proj1 (proj1 (proj2 (proj2 (proj2 (AssetKey_interfaces_coincide _)))))).
  exists {| assetNodes_assetKey__typename := lit; assetNodes_assetKey_path := [ "db"; "t" ] |}.
  reflexivity.
Defined.

(** X4: reading through the fragment.  The event's own [runId] is there
    whatever [runOrError] is; [runOrError.runId] is there only for a [Run];
    and [runOrError.repositoryOrigin.repositoryName] only for a [Run] whose
    [repositoryOrigin] is not [null]: on the error variant and on a [null]
    origin the chain of reads stops with nothing. *)
Theorem fragment_run_reads :
  forall f : LatestMaterializationMetadataFragment,
    let o := JsObject (LatestMaterializationMetadataFragment_object f) in
    getPath [ "runId" ] o = Some (JsString (Fragment_runId f)) /\
    getPath [ "runOrError"; "runId" ] o
      = match Fragment_runOrError f with
        | runOrError_Run run => Some (JsString (Run_runId run))
        | runOrError_RunNotFoundError _ => None
        end /\
    getPath [ "runOrError"; "repositoryOrigin" ] o
      = match Fragment_runOrError f with
        | runOrError_Run run =>
            Some (nullable (fun origin => JsObject (repositoryOrigin_object origin))
                           (Run_repositoryOrigin run))
        | runOrError_RunNotFoundError _ => None
        end /\
    getPath [ "runOrError"; "repositoryOrigin"; "repositoryName" ] o
      = match Fragment_runOrError f with
        | runOrError_Run run =>
            match Run_repositoryOrigin run with
            | Some origin => Some (JsString (repositoryOrigin_repositoryName origin))
            | None => None
            end
        | runOrError_RunNotFoundError _ => None
        end.
Proof.
  intros f o. subst o.
  destruct f as [tn part roe rid ts sk st mes al].
  destruct roe as [[[|]] | [[] ? ? ? ? ? [[[] ? ? ?] |]]]; cbn; repeat split.
Qed.

(** What can be read off the object of any metadata entry. *)
Definition readableEntry (v : JsValue) : Prop :=
  exists o tn i,
    v = JsObject o /\
    readLabel o <> None /\
    readDescription o <> None /\
    typenameOf o = Some tn /\
    narrow metadataEntries_interfaces metadataEntries_typenames tn = Some i /\
    keys o = "__typename" :: metadataEntries_ownFields i.

Lemma metadataEntries_object_readable
  (e : LatestMaterializationMetadataFragment_metadataEntries) :
  readableEntry (JsObject (metadataEntries_object e)).
Proof.
  exists (metadataEntries_object e), (metadataEntries_typename e),
    (metadataEntries_interfaceOf e).
  destruct e as [[[|] ? d] | [[] ? d ?] | [[] ? d ?] | [[] ? d ?] | [[] ? d ?] | [[] ? d ?]
                | [[] ? d ? ?] | [[] ? d ?] | [[] ? d ? ?] | [[] ? d ?] | [[] ? d ?]];
    destruct d; cbn; repeat split; discriminate.
Qed.

(** X5: in every fragment the [metadataEntries] key holds an array with one
    element per entry, and each element is an object whose label and
    description can be read, whose tag narrows to one member interface of the
    union, and whose keys are ["__typename"] and that interface's fields. *)
Theorem fragment_metadataEntries_readable :
  forall f : LatestMaterializationMetadataFragment,
    exists xs : list JsValue,
      getField "metadataEntries" (LatestMaterializationMetadataFragment_object f)
        = Some (JsArray xs) /\
      List.length xs = List.length (Fragment_metadataEntries f) /\
      Forall readableEntry xs.
Proof.
  intros f.
  exists (map (fun e => JsObject (metadataEntries_object e)) (Fragment_metadataEntries f)).
  split; [reflexivity |]. split; [apply length_map |].
  induction (Fragment_metadataEntries f) as [| e es IH]; simpl; constructor.
  - apply metadataEntries_object_readable.
  - exact IH.
Qed.

(** ** Values with the same object *)

Ltac split_tags :=
  repeat match goal with
         | v : Lit _ |- _ => destruct v
         | v : Lit2 _ _ |- _ => destruct v
         end.

Lemma nullable_JsString_inj (a b : option string) :
  nullable JsString a = nullable JsString b -> a = b.
Proof.
  destruct a, b; simpl; intros H; try discriminate H; [injection H as -> |]; reflexivity.
Qed.

Lemma nullable_JsNumber_inj (a b : option number) :
  nullable JsNumber a = nullable JsNumber b -> a = b.
Proof.
  destruct a, b; simpl; intros H; try discriminate H; [injection H as -> |]; reflexivity.
Qed.

Lemma map_injective {A B : Type} (f : A -> B) :
  (forall x y, f x = f y -> x = y) ->
  forall l l' : list A, map f l = map f l' -> l = l'.
Proof.
  intros Hf l. induction l as [| a l IH]; intros [| b l'] H; simpl in H;
    try discriminate H; [reflexivity |].
  injection H as Hab Hll'. f_equal; [apply Hf; exact Hab | apply IH; exact Hll'].
Qed.

Lemma map_JsString_inj (a b : list string) : map JsString a = map JsString b -> a = b.
Proof.
  apply map_injective. intros x y Hxy. injection Hxy as ->. reflexivity.
Qed.

Lemma JsStrings_inj (a b : list string) : JsStrings a = JsStrings b -> a = b.
Proof.
  unfold JsStrings. intros H. injection H as H. apply map_JsString_inj. exact H.
Qed.

Ltac same_fields H :=
  cbn in H; try discriminate H; try reflexivity; injection H; intros;
  repeat match goal with
         | E : nullable JsString _ = nullable JsString _ |- _ =>
             apply nullable_JsString_inj in E
         | E : nullable JsNumber _ = nullable JsNumber _ |- _ =>
             apply nullable_JsNumber_inj in E
         | E : JsStrings _ = JsStrings _ |- _ => apply JsStrings_inj in E
         | E : map JsString _ = map JsString _ |- _ => apply map_JsString_inj in E
         end;
  subst; try reflexivity.

Lemma runOrError_object_inj x y : runOrError_object x = runOrError_object y -> x = y.
Proof.
  intros H.
  destruct x as [[] | [? ? ? ? ? ? [[] |]]], y as [[] | [? ? ? ? ? ? [[] |]]];
    split_tags; same_fields H.
Qed.

Lemma metadataEntries_object_inj x y :
  metadataEntries_object x = metadataEntries_object y -> x = y.
Proof.
  intros H.
  destruct x as [[]|[]|[]|[]|[]|[]|[]|[]|[]|[]|[? ? ? []]],
           y as [[]|[]|[]|[]|[]|[]|[]|[]|[]|[]|[? ? ? []]];
    split_tags; same_fields H.
Qed.

(** X6: an object belongs to one member interface of its union only, and
    fixes the value: two values of [runOrError], or of [metadataEntries],
    that denote the same object are the same member with the same fields. *)
Theorem union_objects_identify_values :
  (forall r r' : LatestMaterializationMetadataFragment_runOrError,
      runOrError_object r = runOrError_object r' -> r = r') /\
  (forall e e' : LatestMaterializationMetadataFragment_metadataEntries,
      metadataEntries_object e = metadataEntries_object e' -> e = e').
Proof.
  split.
  - exact runOrError_object_inj.
  - exact metadataEntries_object_inj.
Qed.

Lemma union_objects_identify_values_witness :
  runOrError_interfaceOf sampleRun = I_Run /\ sampleRun = sampleRun.
Proof.
  split; [reflexivity |].
  apply (proj1 union_objects_identify_values). reflexivity.
Defined.

(** * Null safety and the asset graph *)

Ltac by_key k :=
  repeat match goal with
         | |- context [String.eqb k ?s] => destruct (String.eqb_spec k s); [subst k |]
         end.

(** X9: only a field declared [T | null] can read as [null]: in every
    interface the two files declare in full (all but
    [AssetGraphQueryVariables]), a key whose value is [null] is one of the
    interface's nullable fields, and each of those is a key of the object. *)
Theorem only_nullable_fields_read_null :
  forall (x : AnyInterface) (k : string),
    (getField k (any_object x) = Some JsNull -> In k (nullableKeys x)) /\
    (In k (nullableKeys x) -> In k (keys (any_object x))).
Proof.
  intros x k. split.
  - destruct x as [[]|[]|[]|[]|[]|[]|[]|[]|[]|[]|[]|[]|[]|[]|[]|[]|[]|[]|[]|[]|[]|[]|[]|[]];
      cbn; by_key k; intros H; first [discriminate H | simpl; tauto].
  - destruct x; cbn; intuition.
Qed.

Lemma only_nullable_fields_read_null_witness :
  In "repositoryOrigin" (nullableKeys (Any_runOrError_Run
    {| Run__typename := lit; Run_id := "r1"; Run_runId := "r1"; Run_mode := "default";
       Run_pipelineName := "etl"; Run_pipelineSnapshotId := Some "s";
       Run_repositoryOrigin := None |})).
Proof.
  apply (proj1 (only_nullable_fields_read_null _ "repositoryOrigin")). reflexivity.
Defined.

Lemma Forall_map_elementOf {A B : Type} (view : A -> JsFields) (view' : B -> JsFields)
  (l : list A) :
  (forall a, denotes view' (view a)) ->
  Forall (elementOf view') (map (fun a => JsObject (view a)) l).
Proof.
  intros Hview. induction l as [| a l IH]; simpl; constructor.
  - exists (view a). split; [reflexivity | apply Hview].
  - exact IH.
Qed.

(** X10: in every asset node the [dependencyKeys] and [dependedByKeys] keys
    hold arrays with one element per key, and every element is an object that
    the node's own [assetKey] interface admits, so the ends of an edge and the
    key of a node have one and the same shape. *)
Theorem assetNodes_edges_are_assetKeys :
  forall n : AssetGraphQuery_assetNodes,
    exists ups downs : list JsValue,
      getField "dependencyKeys" (assetNodes_object n) = Some (JsArray ups) /\
      getField "dependedByKeys" (assetNodes_object n) = Some (JsArray downs) /\
      List.length ups = List.length (assetNodes_dependencyKeys n) /\
      List.length downs = List.length (assetNodes_dependedByKeys n) /\
      Forall (elementOf assetNodes_assetKey_object) ups /\
      Forall (elementOf assetNodes_assetKey_object) downs /\
      exists key, getField "assetKey" (assetNodes_object n) = Some (JsObject key) /\
                  denotes assetNodes_assetKey_object key.
Proof.
  intros n.
  exists (map (fun k => JsObject (assetNodes_dependencyKeys_object k))
              (assetNodes_dependencyKeys n)),
         (map (fun k => JsObject (assetNodes_dependedByKeys_object k))
              (assetNodes_dependedByKeys n)).
  split; [reflexivity |]. split; [reflexivity |].
  split; [apply length_map |]. split; [apply length_map |].
  split; [| split].
  - apply Forall_map_elementOf. intros [[] p].
    exists {| assetNodes_assetKey__typename := lit; assetNodes_assetKey_path := p |}.
    reflexivity.
  - apply Forall_map_elementOf. intros [[] p].
    exists {| assetNodes_assetKey__typename := lit; assetNodes_assetKey_path := p |}.
    reflexivity.
  - exists (assetNodes_assetKey_object (assetNodes_assetKey n)).
    split; [reflexivity |]. exists (assetNodes_assetKey n). reflexivity.
Qed.
